(** * Patient Management System API (main.py)

    A shallow embedding of the FastAPI application in [main.py]: the
    pydantic models [Patient] and [UpdatePatient], the two file helpers
    [get_data] / [save_data] and the eight endpoint functions.

    Modelling conventions.
    - A Python [dict] whose iteration order is observable (the collection
      loaded from [patients.json]; [data.values()] feeds [sorted]) is an
      association list with Python's insertion-order semantics; a [dict]
      that is only read by key (one patient record) is a [gmap].
    - Python [int] is [Z].  Python [float] is modelled by the exact rational
      it denotes ([Q]): binary rounding error, overflow, infinities and NaN
      are outside the model.  [round(x, 2)] is round-half-to-even on that
      exact value, as the built-in does.
    - Exceptions are values of [exn]; a computation that may raise returns
      a [result].  The endpoint functions run in [io], a state-and-exception
      monad over the contents of [patients.json] and a trace of the file
      operations performed. *)

From Stdlib Require Import ZArith QArith Qround String List Sorting.Sorted Permutation Lia Lqa.
From stdpp Require Import base gmap strings list fin_maps sorting.

Open Scope string_scope.
Open Scope list_scope.

(** ** Exceptions and results *)

Inductive exn : Type :=
| HTTPException (status_code : Z) (detail : string)
| ValidationError (fields : list string)   (* pydantic: the fields that failed *)
| ZeroDivisionError
| TypeError
| KeyError (key : string)
| FileError.                               (* open() / json.load failed *)

Inductive result (A : Type) : Type :=
| Return (a : A)
| Raise (e : exn).
Arguments Return {A} a.
Arguments Raise {A} e.

#[export] Instance result_ret : MRet result := @Return.
#[export] Instance result_bind : MBind result := λ A B f m,
  match m with
  | Return a => f a
  | Raise e => Raise e
  end.

(** ** Python values held in a JSON document *)

Inductive value : Type :=
| VNone
| VInt (z : Z)
| VFloat (q : Q)
| VStr (s : string).

(** ** Arithmetic on floats *)

Definition Qltb (x y : Q) : bool := negb (Qle_bool y x).

(** [a / b] on floats: raises on a zero divisor. *)
Definition py_truediv (a b : Q) : result Q :=
  if Qeq_bool b 0 then Raise ZeroDivisionError else Return (a / b)%Q.

(** [x ** n] for a literal non-negative [n]. *)
Definition py_pow (x : Q) (n : positive) : Q := Qpower_positive x n.

(** Nearest integer, ties to the even neighbour. *)
Definition round_half_even (x : Q) : Z :=
  let f := Qfloor x in
  match (x - inject_Z f ?= 1 # 2)%Q with
  | Lt => f
  | Gt => (f + 1)%Z
  | Eq => if Z.even f then f else (f + 1)%Z
  end.

(** [round(x, ndigits)] for [ndigits >= 0]. *)
Definition py_round (x : Q) (ndigits : nat) : Q :=
  let scale := (10 ^ Z.of_nat ndigits)%Z in
  Qred (Qmake (round_half_even (x * inject_Z scale)) (Z.to_pos scale)).

(** ** pydantic field validation

    The [Patient] constructor validates each keyword argument against the field's
    annotation (lax mode): a [str] field takes a string; an [int] field takes
    an int or a float without fractional part; a [float] field takes a float
    or an int.  [None] and a missing key are rejected for a required field.
    (Parsing of numeric strings is not modelled: a string in a numeric field
    is rejected here.) *)

Definition validate_str (v : option value) : option string :=
  match v with
  | Some (VStr s) => Some s
  | _ => None
  end.

Definition validate_int (v : option value) : option Z :=
  match v with
  | Some (VInt z) => Some z
  | Some (VFloat q) =>
      if Qeq_bool q (inject_Z (Qfloor q)) then Some (Qfloor q) else None
  | _ => None
  end.

Definition validate_float (v : option value) : option Q :=
  match v with
  | Some (VFloat q) => Some q
  | Some (VInt z) => Some (inject_Z z)
  | _ => None
  end.

(** A constraint ([gt], [le], [Literal]) applied after the type check. *)
Definition constrain {A : Type} (P : A → bool) (o : option A) : option A :=
  match o with
  | Some a => if P a then Some a else None
  | None => None
  end.

Definition failed {A : Type} (field : string) (o : option A) : list string :=
  match o with
  | Some _ => []
  | None => [field]
  end.

(** ** The Patient model *)

Definition gender_literals : list string := ["Male"; "Female"; "Other"].

Definition age_ok (z : Z) : bool := (0 <? z)%Z && (z <=? 120)%Z.
Definition gender_ok (s : string) : bool := bool_decide (s ∈ gender_literals).
Definition positive_ok (q : Q) : bool := Qltb 0 q.

Module Patient.

Record t : Type := mk {
  id : string;
  name : string;
  city : string;
  age : Z;
  gender : string;
  height : Q;
  weight : Q
}.

(** The field constraints: [gt=0, le=120] on [age], the [Literal] on
    [gender], [gt=0] on [height] and [weight].  Every [Patient] object that
    exists at run time satisfies them. *)
Definition valid (self : t) : bool :=
  age_ok (age self) && gender_ok (gender self)
  && positive_ok (height self) && positive_ok (weight self).

(** The constructor, called with the entries of [kwargs] as keyword
    arguments. *)
Definition init (kwargs : gmap string value) : result t :=
  let f_id := validate_str (kwargs !! "id") in
  let f_name := validate_str (kwargs !! "name") in
  let f_city := validate_str (kwargs !! "city") in
  let f_age := constrain age_ok (validate_int (kwargs !! "age")) in
  let f_gender := constrain gender_ok (validate_str (kwargs !! "gender")) in
  let f_height := constrain positive_ok (validate_float (kwargs !! "height")) in
  let f_weight := constrain positive_ok (validate_float (kwargs !! "weight")) in
  match f_id, f_name, f_city, f_age, f_gender, f_height, f_weight with
  | Some i, Some n, Some c, Some a, Some g, Some h, Some w =>
      Return (mk i n c a g h w)
  | _, _, _, _, _, _, _ =>
      Raise (ValidationError
               (failed "id" f_id ++ failed "name" f_name
                ++ failed "city" f_city ++ failed "age" f_age
                ++ failed "gender" f_gender ++ failed "height" f_height
                ++ failed "weight" f_weight))
  end.

(** [@computed_field bmi] *)
Definition bmi (self : t) : result Q :=
  x ← py_truediv (weight self) (py_pow (height self) 2);
  mret (py_round x 2).

(** [@computed_field verdict] *)
Definition verdict (self : t) : result string :=
  b ← bmi self;
  if Qltb b 18.5 then mret "Underweight"
  else if Qltb b 25 then mret "Normal weight"
  else if Qltb b 30 then mret "Overweight"
  else mret "Obese".

(** [self.model_dump()]: the seven fields and the two computed fields. *)
Definition model_dump (self : t) : result (gmap string value) :=
  b ← bmi self;
  v ← verdict self;
  mret (<["id" := VStr (id self)]>
        (<["name" := VStr (name self)]>
        (<["city" := VStr (city self)]>
        (<["age" := VInt (age self)]>
        (<["gender" := VStr (gender self)]>
        (<["height" := VFloat (height self)]>
        (<["weight" := VFloat (weight self)]>
        (<["bmi" := VFloat b]>
        (<["verdict" := VStr v]> ∅))))))))).

(** [self.model_dump(exclude=key)] *)
Definition model_dump_exclude (self : t) (exclude : string)
  : result (gmap string value) :=
  d ← model_dump self;
  mret (delete exclude d).

End Patient.

(** ** The UpdatePatient model

    Every field is [Optional] with default [None]; pydantic records which
    fields the request body set.  A field is [None] when the body did not
    mention it, [Some None] when the body set it to [null], and
    [Some (Some v)] when the body gave it the value [v]. *)

Module UpdatePatient.

Record t : Type := mk {
  name : option (option string);
  city : option (option string);
  age : option (option Z);
  gender : option (option string);
  height : option (option Q);
  weight : option (option Q)
}.

Definition field_ok {A : Type} (P : A → bool) (f : option (option A)) : bool :=
  match f with
  | Some (Some a) => P a
  | _ => true
  end.

(** The field constraints, which apply to values other than [None]. *)
Definition valid (self : t) : bool :=
  field_ok age_ok (age self) && field_ok gender_ok (gender self)
  && field_ok positive_ok (height self) && field_ok positive_ok (weight self).

Definition dump_field {A : Type} (key : string) (inj : A → value)
    (f : option (option A)) : list (string * value) :=
  match f with
  | None => []
  | Some None => [(key, VNone)]
  | Some (Some a) => [(key, inj a)]
  end.

(** [self.model_dump(exclude_unset=True)]: the fields the body set, in
    declaration order. *)
Definition model_dump_exclude_unset (self : t) : list (string * value) :=
  dump_field "name" VStr (name self)
  ++ dump_field "city" VStr (city self)
  ++ dump_field "age" VInt (age self)
  ++ dump_field "gender" VStr (gender self)
  ++ dump_field "height" VFloat (height self)
  ++ dump_field "weight" VFloat (weight self).

End UpdatePatient.

(** ** Insertion-ordered dictionaries

    The object returned by [json.load]: string keys, no key twice, iteration
    in insertion order. *)

Abbreviation record := (gmap string value).
Abbreviation collection := (list (string * gmap string value)).

Section pydict.
Context {V : Type}.

Fixpoint dict_get (d : list (string * V)) (k : string) : option V :=
  match d with
  | [] => None
  | (k', v) :: d' => if decide (k = k') then Some v else dict_get d' k
  end.

(** [k in d] *)
Definition dict_contains (d : list (string * V)) (k : string) : bool :=
  match dict_get d k with
  | Some _ => true
  | None => false
  end.

(** [d[k]] *)
Definition dict_getitem (d : list (string * V)) (k : string) : result V :=
  match dict_get d k with
  | Some v => Return v
  | None => Raise (KeyError k)
  end.

(** [d[k] = v]: an existing key keeps its position, a new key goes last. *)
Fixpoint dict_set (d : list (string * V)) (k : string) (v : V)
  : list (string * V) :=
  match d with
  | [] => [(k, v)]
  | (k', v') :: d' =>
      if decide (k = k') then (k', v) :: d' else (k', v') :: dict_set d' k v
  end.

Fixpoint dict_remove (d : list (string * V)) (k : string) : list (string * V) :=
  match d with
  | [] => []
  | (k', v') :: d' =>
      if decide (k = k') then dict_remove d' k else (k', v') :: dict_remove d' k
  end.

(** [del d[k]] *)
Definition dict_delitem (d : list (string * V)) (k : string)
  : result (list (string * V)) :=
  if dict_contains d k then Return (dict_remove d k) else Raise (KeyError k).

(** [d.values()] *)
Definition dict_values (d : list (string * V)) : list V := map snd d.

Definition dict_keys (d : list (string * V)) : list string := map fst d.

End pydict.

(** ** The file and the endpoint monad *)

Inductive io_event : Type :=
| Load                          (* json.load of patients.json *)
| Save (data : collection).     (* json.dump to patients.json *)

(** [patients_json] is the collection held by the file, [None] when the file
    is missing or does not parse; [trace] lists the file operations so far. *)
Record world : Type := World {
  patients_json : option collection;
  trace : list io_event
}.

Definition io (A : Type) : Type := world → result A * world.

#[export] Instance io_ret : MRet io := λ A a w, (Return a, w).
#[export] Instance io_bind : MBind io := λ A B f m w,
  match m w with
  | (Return a, w') => f a w'
  | (Raise e, w') => (Raise e, w')
  end.

Definition raise {A : Type} (e : exn) : io A := λ w, (Raise e, w).

Definition lift {A : Type} (r : result A) : io A := λ w, (r, w).

(** function for getting data *)
Definition get_data : io collection := λ w,
  let w' := World (patients_json w) (trace w ++ [Load]) in
  match patients_json w with
  | Some data => (Return data, w')
  | None => (Raise FileError, w')
  end.

(** function for saving data *)
Definition save_data (data : collection) : io unit := λ w,
  (Return (), World (Some data) (trace w ++ [Save data])).

(** ** The built-in [sorted]

    [sorted(l, key=key, reverse=reverse)] compares the keys with [<] only
    and is stable; with [reverse] it reverses the list, sorts, and reverses
    the outcome, which keeps equal keys in their original order.  The sort
    itself is given here as the plain stable insertion sort: on keys that
    [<] orders, every stable sort returns the same list, and a comparison
    that raises is reached exactly when two keys of the list are not
    comparable.  The key function is pure, so applying it at each comparison
    gives the same list as computing every key once. *)

Definition as_number (v : value) : option Q :=
  match v with
  | VInt z => Some (inject_Z z)
  | VFloat q => Some q
  | _ => None
  end.

(** [a < b] *)
Definition py_lt (a b : value) : result bool :=
  match as_number a, as_number b with
  | Some x, Some y => Return (Qltb x y)
  | _, _ =>
      match a, b with
      | VStr s, VStr t => Return (String.ltb s t)
      | _, _ => Raise TypeError
      end
  end.

Fixpoint insert_sorted {A : Type} (key : A → value) (x : A) (l : list A)
  : result (list A) :=
  match l with
  | [] => Return [x]
  | y :: l' =>
      b ← py_lt (key y) (key x);
      if b : bool then r ← insert_sorted key x l'; mret (y :: r)
      else mret (x :: y :: l')
  end.

Fixpoint stable_sort {A : Type} (key : A → value) (l : list A)
  : result (list A) :=
  match l with
  | [] => Return []
  | x :: l' => s ← stable_sort key l'; insert_sorted key x s
  end.

Definition sorted {A : Type} (l : list A) (key : A → value) (reverse : bool)
  : result (list A) :=
  if reverse
  then r ← stable_sort key (rev l); mret (rev r)
  else stable_sort key l.

(** [d.get(k, default)] on a record *)
Definition record_get (d : gmap string value) (k : string) (dflt : value)
  : value :=
  match d !! k with
  | Some v => v
  | None => dflt
  end.

(** ** The endpoints *)

Inductive response : Type :=
| JSONResponse (status_code : Z) (content : gmap string string).

(** [@app.get("/")] *)
Definition hello : gmap string string :=
  {[ "massage" := "Patient Management System API" ]}.

(** [@app.get("/about")] *)
Definition about : gmap string string :=
  {[ "massage" := "A fully functional API for managing patient records." ]}.

(** [@app.get("/view")] *)
Definition view : io collection :=
  data ← get_data;
  mret data.

(** [@app.get("/patient/{patient_id}")] *)
Definition view_patient (patient_id : string) : io (gmap string value) :=
  data ← get_data;
  if dict_contains data patient_id
  then lift (dict_getitem data patient_id)
  else raise (HTTPException 404 "Patient not found").

Definition valid_fields : list string := ["height"; "weight"; "bmi"].

(** [@app.get("/sort")]; [order] defaults to ["asc"] when the query omits it. *)
Definition sort_patient (sort_by order : string)
  : io (list (gmap string value)) :=
  if negb (bool_decide (sort_by ∈ valid_fields))
  then raise (HTTPException 404 "The input is not valid")
  else if negb (bool_decide (order ∈ ["asc"; "desc"]))
  then raise (HTTPException 404 "The input is not valid")
  else
    data ← get_data;
    let sort_order := bool_decide (order = "desc") in
    sorted_patient ← lift (sorted (dict_values data)
                             (λ x, record_get x sort_by (VInt 0)) sort_order);
    mret sorted_patient.

(** [@app.post("/create")] *)
Definition create_patient (patient : Patient.t) : io response :=
  data ← get_data;
  if dict_contains data (Patient.id patient)
  then raise (HTTPException 401 "The patient is already exists")
  else
    dumped ← lift (Patient.model_dump_exclude patient "id");
    let data := dict_set data (Patient.id patient) dumped in
    _ ← save_data data;
    mret (JSONResponse 201 {[ "massage" := "Patient created successfully" ]}).

(** The loop [for key in updated_data: patient_data[key] = updated_data[key]]. *)
Definition assign_all (patient_data : gmap string value)
    (updated_data : list (string * value)) : gmap string value :=
  fold_left (λ d kv, <[kv.1 := kv.2]> d) updated_data patient_data.

(** [@app.put("/edit/{patient_id}")].  [patient_data] aliases the entry of
    [data] until it is rebound to the fresh dump; [data] is only written to
    the file after the entry has been replaced by that dump, so the in-place
    changes to the old entry are not observable. *)
Definition update_patient (patient_id : string)
    (patient_update : UpdatePatient.t) : io response :=
  data ← get_data;
  if negb (dict_contains data patient_id)
  then raise (HTTPException 404 "Patient not found")
  else
    patient_data ← lift (dict_getitem data patient_id);
    let updated_data := UpdatePatient.model_dump_exclude_unset patient_update in
    let patient_data := assign_all patient_data updated_data in
    let patient_data := <["id" := VStr patient_id]> patient_data in
    let patient_data := delete "bmi" patient_data in
    let patient_data := delete "verdict" patient_data in
    patient_obj ← lift (Patient.init patient_data);
    patient_data ← lift (Patient.model_dump_exclude patient_obj "id");
    let data := dict_set data patient_id patient_data in
    _ ← save_data data;
    mret (JSONResponse 200 {[ "massage" := "Patient updated successfully" ]}).

(** [@app.delete("/delete/{patient_id}")] *)
Definition delete_patient (patient_id : string) : io response :=
  data ← get_data;
  if negb (dict_contains data patient_id)
  then raise (HTTPException 404 "Patient not found")
  else
    data ← lift (dict_delitem data patient_id);
    _ ← save_data data;
    mret (JSONResponse 200 {[ "massage" := "Patient deleted successfully" ]}).

(** ** The routes *)

(** The requests the application routes, and what it answers. *)
Inductive request : Type :=
| GetRoot                                               (* GET / *)
| GetAbout                                              (* GET /about *)
| GetView                                               (* GET /view *)
| GetPatient (patient_id : string)                      (* GET /patient/{id} *)
| GetSort (sort_by order : string)                      (* GET /sort *)
| PostCreate (patient : Patient.t)                      (* POST /create *)
| PutEdit (patient_id : string) (patient_update : UpdatePatient.t)
| DeleteDelete (patient_id : string).                   (* DELETE /delete/{id} *)

Inductive reply : Type :=
| Message (content : gmap string string)
| Collection (data : collection)
| Record (r : gmap string value)
| Records (l : list (gmap string value))
| Json (r : response).

Definition handle (req : request) : io reply :=
  match req with
  | GetRoot => mret (Message hello)
  | GetAbout => mret (Message about)
  | GetView => data ← view; mret (Collection data)
  | GetPatient patient_id => r ← view_patient patient_id; mret (Record r)
  | GetSort sort_by order => l ← sort_patient sort_by order; mret (Records l)
  | PostCreate patient => r ← create_patient patient; mret (Json r)
  | PutEdit patient_id patient_update =>
      r ← update_patient patient_id patient_update; mret (Json r)
  | DeleteDelete patient_id => r ← delete_patient patient_id; mret (Json r)
  end.

(** * Vocabulary of the statements *)

(** The entry written for a patient: its dump without ["id"]. *)
Definition entry_of (p : Patient.t) (b : Q) (v : string) : gmap string value :=
  <["name" := VStr (Patient.name p)]>
  (<["city" := VStr (Patient.city p)]>
  (<["age" := VInt (Patient.age p)]>
  (<["gender" := VStr (Patient.gender p)]>
  (<["height" := VFloat (Patient.height p)]>
  (<["weight" := VFloat (Patient.weight p)]>
  (<["bmi" := VFloat b]>
  (<["verdict" := VStr v]> ∅))))))).

(** The names of the fields a request supplies, and of the fields of a
    written entry. *)
Definition input_fields : list string :=
  ["name"; "city"; "age"; "gender"; "height"; "weight"].

Definition stored_fields : list string := input_fields ++ ["bmi"; "verdict"].

(** The world after a request that only loaded the file, and after one that
    loaded it and wrote [data] back. *)
Definition loaded (w : world) : world :=
  World (patients_json w) (trace w ++ [Load]).

Definition saved (w : world) (data : collection) : world :=
  World (Some data) (trace w ++ [Load; Save data]).

(** The keyword arguments [update_patient] passes to the constructor. *)
Definition revalidated (r : gmap string value) (patient_id : string)
    (patient_update : UpdatePatient.t) : gmap string value :=
  delete "verdict"
    (delete "bmi"
       (<["id" := VStr patient_id]>
          (assign_all r (UpdatePatient.model_dump_exclude_unset patient_update)))).

(** No entry of the collection holds an ["id"] key in its value. *)
Definition id_not_stored (data : collection) : Prop :=
  Forall (λ kv, kv.2 !! "id" = None) data.

(** The value a field of the body supplies, if the body set it. *)
Definition supplied {A : Type} (inj : A → value) (f : option (option A))
  : option value :=
  match f with
  | None => None
  | Some None => Some VNone
  | Some (Some a) => Some (inj a)
  end.



(** The body sets no field to [null]. *)
Definition not_null {A : Type} (f : option (option A)) : bool :=
  match f with
  | Some None => false
  | _ => true
  end.

Definition sets_no_null (patient_update : UpdatePatient.t) : bool :=
  not_null (UpdatePatient.name patient_update)
  && not_null (UpdatePatient.city patient_update)
  && not_null (UpdatePatient.age patient_update)
  && not_null (UpdatePatient.gender patient_update)
  && not_null (UpdatePatient.height patient_update)
  && not_null (UpdatePatient.weight patient_update).


(** The body that supplies only weight, and the empty body. *)
Definition weight_only (wt : Q) : UpdatePatient.t :=
  UpdatePatient.mk None None None None None (Some (Some wt)).







(** The requests that may write the file. *)
Definition mutating (req : request) : bool :=
  match req with
  | PostCreate _ | PutEdit _ _ | DeleteDelete _ => true
  | _ => false
  end.

(** The id a request addresses, if any. *)
Definition target (req : request) : option string :=
  match req with
  | PostCreate patient => Some (Patient.id patient)
  | PutEdit patient_id _ => Some patient_id
  | DeleteDelete patient_id => Some patient_id
  | _ => None
  end.

(** The fields the constructor reports for the keyword arguments [d]. *)
Definition validation_errors (d : gmap string value) : list string :=
  failed "id" (validate_str (d !! "id"))
  ++ failed "name" (validate_str (d !! "name"))
  ++ failed "city" (validate_str (d !! "city"))
  ++ failed "age" (constrain age_ok (validate_int (d !! "age")))
  ++ failed "gender" (constrain gender_ok (validate_str (d !! "gender")))
  ++ failed "height" (constrain positive_ok (validate_float (d !! "height")))
  ++ failed "weight" (constrain positive_ok (validate_float (d !! "weight"))).

(** An entry that is the dump of a valid patient, with the bmi and verdict
    computed from it. *)
Definition written (r : gmap string value) : Prop :=
  ∃ p b v,
    Patient.valid p = true ∧
    Patient.bmi p = Return b ∧
    Patient.verdict p = Return v ∧
    r = entry_of p b v.




(** * Example data *)

(** The patient of the scenario in the specification. *)
Definition asha : Patient.t :=
  Patient.mk "P001" "Asha" "Pune" 30 "Male" 1.75 70.

(** A file that holds the empty collection; nothing has touched it yet. *)
Definition empty_world : world := World (Some []) [].

(** The entry [create_patient] writes for [asha], and the file holding it. *)
Definition asha_entry : gmap string value :=
  entry_of asha (1143 # 50) "Normal weight".

Definition asha_world : world := World (Some [("P001", asha_entry)]) [].

(** The world after [asha] has been created in an empty collection. *)
Definition asha_created : world :=
  World (Some [("P001", asha_entry)]) [Load; Save [("P001", asha_entry)]].


(** Three records: two with the same bmi, one without a bmi. *)
Definition bmi_record (name : string) (b : Q) : gmap string value :=
  <["name" := VStr name]> (<["bmi" := VFloat b]> ∅).

Definition three_records : collection :=
  [("P001", bmi_record "Asha" 22.86);
   ("P002", {[ "name" := VStr "Bina" ]});
   ("P003", bmi_record "Chen" 22.86)].

(** Two records, one of which holds [null] as its bmi. *)
Definition null_bmi_records : collection :=
  [("P001", bmi_record "Asha" 22.86);
   ("P002", <["name" := VStr "Bina"]> (<["bmi" := VNone]> ∅))].

(** The body that sets weight to [null]. *)
Definition weight_null : UpdatePatient.t :=
  UpdatePatient.mk None None None None None (Some None).

(** * Properties *)

(** ** Comparisons and arithmetic *)






(** ** The computed fields *)





(** Membership in a list of literals. *)
Ltac in_list := apply list_elem_of_In; simpl; tauto.

(** ** Dictionaries *)

Section pydict_facts.
Context {V : Type}.
Implicit Types (d : list (string * V)) (k : string) (v : V).

Lemma dict_contains_true d k :
  dict_contains d k = true ↔ ∃ v, dict_get d k = Some v.
Proof.
  unfold dict_contains. destruct (dict_get d k); split; eauto; try done.
  by intros [? ?].
Qed.

Lemma dict_contains_false d k :
  dict_contains d k = false ↔ dict_get d k = None.
Proof. unfold dict_contains. by destruct (dict_get d k). Qed.

Lemma dict_get_Some_elem d k v : dict_get d k = Some v → (k, v) ∈ d.
Proof.
  induction d as [|[k' v'] d IH]; simpl; [done|].
  case_decide; intros ?; simplify_eq; [left | right; auto].
Qed.

Lemma dict_get_None_keys d k : dict_get d k = None ↔ k ∉ dict_keys d.
Proof.
  induction d as [|[k' v'] d IH]; simpl.
  - split; [intros _; apply not_elem_of_nil | done].
  - rewrite not_elem_of_cons. case_decide; simplify_eq.
    + split; [done | by intros [? _]].
    + rewrite IH. tauto.
Qed.

Lemma dict_get_set_eq d k v : dict_get (dict_set d k v) k = Some v.
Proof.
  induction d as [|[k' v'] d IH]; simpl.
  - by rewrite decide_True.
  - case_decide; simpl; [by rewrite decide_True | by rewrite decide_False].
Qed.

Lemma dict_get_set_ne d k k' v :
  k ≠ k' → dict_get (dict_set d k v) k' = dict_get d k'.
Proof.
  intros Hne. induction d as [|[k0 v0] d IH]; simpl.
  - by rewrite decide_False.
  - case_decide; simpl; subst.
    + by rewrite !decide_False.
    + by rewrite IH.
Qed.

(** Assigning to a new key appends the entry. *)
Lemma dict_set_fresh d k v :
  dict_get d k = None → dict_set d k v = d ++ [(k, v)].
Proof.
  induction d as [|[k' v'] d IH]; simpl; [done|].
  case_decide; [done|]. intros ?. by rewrite IH.
Qed.


Lemma dict_keys_set_present d k v :
  k ∈ dict_keys d → dict_keys (dict_set d k v) = dict_keys d.
Proof.
  induction d as [|[k' v0] d IH]; simpl.
  - by intros ?%elem_of_nil.
  - case_decide; simpl; [done|].
    intros [?|?]%elem_of_cons; [done|]. by rewrite IH.
Qed.

Lemma elem_of_dict_set d k v k' v' :
  (k', v') ∈ dict_set d k v → (k', v') = (k, v) ∨ (k', v') ∈ d.
Proof.
  induction d as [|[k0 v0] d IH]; simpl.
  - intros ?%list_elem_of_singleton. by left.
  - case_decide; subst.
    + intros [?|?]%elem_of_cons; [by left | right; by right].
    + intros [->|?]%elem_of_cons; [right; by left |].
      destruct IH as [?|?]; [done | by left | right; by right].
Qed.

Lemma dict_remove_filter d k :
  dict_remove d k = filter (λ kv, kv.1 ≠ k) d.
Proof.
  induction d as [|[k' v'] d IH]; simpl; [done|].
  case_decide; subst.
  - rewrite filter_cons_False by (simpl; tauto). done.
  - rewrite filter_cons_True by (simpl; congruence). by rewrite IH.
Qed.

Lemma dict_get_remove_eq d k : dict_get (dict_remove d k) k = None.
Proof.
  induction d as [|[k' v'] d IH]; simpl; [done|].
  case_decide; simpl; [done | by rewrite decide_False].
Qed.

Lemma dict_get_remove_ne d k k' :
  k ≠ k' → dict_get (dict_remove d k) k' = dict_get d k'.
Proof.
  intros Hne. induction d as [|[k0 v0] d IH]; simpl; [done|].
  case_decide; simpl; subst.
  - by rewrite decide_False.
  - by rewrite IH.
Qed.

Lemma elem_of_dict_remove d k k' v' :
  (k', v') ∈ dict_remove d k → (k', v') ∈ d.
Proof.
  rewrite dict_remove_filter. by intros [_ ?]%list_elem_of_filter.
Qed.

End pydict_facts.

(** ** Dumping and re-validating a patient *)


Lemma model_dump_exclude_id_inv (p : Patient.t) (r : gmap string value) :
  Patient.model_dump_exclude p "id" = Return r →
  ∃ b v, Patient.bmi p = Return b ∧ Patient.verdict p = Return v
         ∧ r = entry_of p b v.
Proof.
  unfold Patient.model_dump_exclude, Patient.model_dump.
  destruct (Patient.bmi p) as [b|] eqn:Hb; [|done].
  destruct (Patient.verdict p) as [v|] eqn:Hv; [|done].
  cbn. intros [= <-]. by exists b, v.
Qed.




Lemma constrain_Some {A : Type} (P : A → bool) (o : option A) (a : A) :
  constrain P o = Some a ↔ o = Some a ∧ P a = true.
Proof.
  unfold constrain. destruct o as [a'|].
  - destruct (P a') eqn:E; split.
    + by intros [= ->].
    + by intros [[= ->] _].
    + done.
    + intros [[= ->] ?]. congruence.
  - split; [done | by intros [? _]].
Qed.

(** What the constructor accepts, field by field. *)
Lemma init_Return (d : gmap string value) (p : Patient.t) :
  Patient.init d = Return p ↔
    validate_str (d !! "id") = Some (Patient.id p) ∧
    validate_str (d !! "name") = Some (Patient.name p) ∧
    validate_str (d !! "city") = Some (Patient.city p) ∧
    constrain age_ok (validate_int (d !! "age")) = Some (Patient.age p) ∧
    constrain gender_ok (validate_str (d !! "gender"))
      = Some (Patient.gender p) ∧
    constrain positive_ok (validate_float (d !! "height"))
      = Some (Patient.height p) ∧
    constrain positive_ok (validate_float (d !! "weight"))
      = Some (Patient.weight p).
Proof.
  unfold Patient.init. destruct p as [i n c a g h w]; simpl.
  destruct (validate_str (d !! "id")),
    (validate_str (d !! "name")),
    (validate_str (d !! "city")),
    (constrain age_ok (validate_int (d !! "age"))),
    (constrain gender_ok (validate_str (d !! "gender"))),
    (constrain positive_ok (validate_float (d !! "height"))),
    (constrain positive_ok (validate_float (d !! "weight")));
    (split;
     [ intros H; try discriminate H; by injection H as -> -> -> -> -> -> ->
     | intros (? & ? & ? & ? & ? & ? & ?); by simplify_eq ]).
Qed.

(** The constructor depends on its seven keyword arguments only. *)
Lemma init_ext (d d' : gmap string value) :
  (∀ k, k ∈ "id" :: input_fields → d !! k = d' !! k) →
  Patient.init d = Patient.init d'.
Proof.
  intros H. unfold Patient.init.
  rewrite (H "id"), (H "name"), (H "city"), (H "age"), (H "gender"),
    (H "height"), (H "weight") by in_list.
  reflexivity.
Qed.

Lemma init_valid (d : gmap string value) (p : Patient.t) :
  Patient.init d = Return p → Patient.valid p = true.
Proof.
  rewrite init_Return, !constrain_Some.
  intros (_ & _ & _ & [_ Ha] & [_ Hg] & [_ Hh] & [_ Hw]).
  unfold Patient.valid. by rewrite Ha, Hg, Hh, Hw.
Qed.

Lemma init_id (d : gmap string value) (p : Patient.t) (i : string) :
  d !! "id" = Some (VStr i) → Patient.init d = Return p → Patient.id p = i.
Proof.
  rewrite init_Return. intros -> (Hi & _). simpl in Hi. congruence.
Qed.

(** ** What each endpoint does, given the collection in the file *)

Ltac run_io :=
  unfold mbind, io_bind, mret, io_ret, get_data, save_data, raise, lift,
    loaded, saved; simpl.

Lemma view_run (w : world) (data : collection) :
  patients_json w = Some data → view w = (Return data, loaded w).
Proof. intros Hw. unfold view. run_io. by rewrite Hw. Qed.

Lemma view_patient_run (w : world) (data : collection) (patient_id : string) :
  patients_json w = Some data →
  view_patient patient_id w
  = (match dict_get data patient_id with
     | Some r => Return r
     | None => Raise (HTTPException 404 "Patient not found")
     end, loaded w).
Proof.
  intros Hw. unfold view_patient, dict_contains, dict_getitem. run_io.
  rewrite Hw. by destruct (dict_get data patient_id).
Qed.

Lemma create_patient_run (w : world) (data : collection) (patient : Patient.t) :
  patients_json w = Some data →
  create_patient patient w
  = if dict_contains data (Patient.id patient)
    then (Raise (HTTPException 401 "The patient is already exists"), loaded w)
    else match Patient.model_dump_exclude patient "id" with
         | Return r =>
             (Return (JSONResponse 201
                        {[ "massage" := "Patient created successfully" ]}),
              saved w (dict_set data (Patient.id patient) r))
         | Raise e => (Raise e, loaded w)
         end.
Proof.
  intros Hw. unfold create_patient. run_io. rewrite Hw.
  destruct (dict_contains data (Patient.id patient)); [done|].
  destruct (Patient.model_dump_exclude patient "id"); [|done].
  simpl. by rewrite <- app_assoc.
Qed.

Lemma update_patient_run (w : world) (data : collection)
    (patient_id : string) (patient_update : UpdatePatient.t) :
  patients_json w = Some data →
  update_patient patient_id patient_update w
  = match dict_get data patient_id with
    | None => (Raise (HTTPException 404 "Patient not found"), loaded w)
    | Some r =>
        match Patient.init (revalidated r patient_id patient_update) with
        | Raise e => (Raise e, loaded w)
        | Return patient_obj =>
            match Patient.model_dump_exclude patient_obj "id" with
            | Raise e => (Raise e, loaded w)
            | Return r' =>
                (Return (JSONResponse 200
                           {[ "massage" := "Patient updated successfully" ]}),
                 saved w (dict_set data patient_id r'))
            end
        end
    end.
Proof.
  intros Hw. unfold update_patient, dict_contains, dict_getitem, revalidated.
  run_io. rewrite Hw.
  destruct (dict_get data patient_id) as [r|]; simpl; [|done].
  destruct (Patient.init _) as [p|]; [|done].
  destruct (Patient.model_dump_exclude p "id"); [|done].
  simpl. by rewrite <- app_assoc.
Qed.

Lemma delete_patient_run (w : world) (data : collection) (patient_id : string) :
  patients_json w = Some data →
  delete_patient patient_id w
  = if dict_contains data patient_id
    then (Return (JSONResponse 200
                    {[ "massage" := "Patient deleted successfully" ]}),
          saved w (dict_remove data patient_id))
    else (Raise (HTTPException 404 "Patient not found"), loaded w).
Proof.
  intros Hw. unfold delete_patient, dict_delitem. run_io. rewrite Hw.
  destruct (dict_contains data patient_id); simpl; [|done].
  simpl. by rewrite <- app_assoc.
Qed.

Lemma sort_patient_run (w : world) (data : collection) (sort_by order : string) :
  patients_json w = Some data →
  sort_by ∈ valid_fields →
  order ∈ ["asc"; "desc"] →
  sort_patient sort_by order w
  = (sorted (dict_values data) (λ x, record_get x sort_by (VInt 0))
       (bool_decide (order = "desc")), loaded w).
Proof.
  intros Hw Hs Ho. unfold sort_patient.
  rewrite !bool_decide_eq_true_2 by done. run_io. rewrite Hw.
  by destruct (sorted _ _ _).
Qed.

Lemma sort_patient_invalid (w : world) (sort_by order : string) :
  sort_by ∉ valid_fields ∨ order ∉ ["asc"; "desc"] →
  sort_patient sort_by order w
  = (Raise (HTTPException 404 "The input is not valid"), w).
Proof.
  intros H. unfold sort_patient.
  destruct (bool_decide (sort_by ∈ valid_fields)) eqn:E1; [|done].
  destruct (bool_decide (order ∈ ["asc"; "desc"])) eqn:E2; [|done].
  apply bool_decide_eq_true in E1, E2. tauto.
Qed.

(** ** Create *)



(** ** Get by id *)

(** C5 (as the code has it).  [view_patient] returns the stored value of the
    entry exactly as the file holds it (nothing is added to it: no ["id"],
    and ["bmi"] / ["verdict"] only if they are stored), and raises the 404
    error when the id is not a key; either way the file is only loaded. *)
Theorem view_patient_returns_stored_value
    (w : world) (data : collection) (patient_id : string) :
  patients_json w = Some data →
  (∀ r, dict_get data patient_id = Some r →
     view_patient patient_id w
     = (Return r, World (Some data) (trace w ++ [Load])))
  ∧
  (dict_get data patient_id = None →
     view_patient patient_id w
     = (Raise (HTTPException 404 "Patient not found"),
        World (Some data) (trace w ++ [Load]))).
Proof.
  intros Hw. rewrite (view_patient_run w data) by done. unfold loaded.
  rewrite Hw. split.
  - by intros r ->.
  - by intros ->.
Qed.

Lemma view_patient_returns_stored_value_witness :
  patients_json asha_world = Some [("P001", asha_entry)] ∧
  (∀ r, dict_get [("P001", asha_entry)] "P001" = Some r →
     view_patient "P001" asha_world
     = (Return r, World (Some [("P001", asha_entry)])
                    (trace asha_world ++ [Load])))
  ∧
  (dict_get [("P001", asha_entry)] "P001" = None →
     view_patient "P001" asha_world
     = (Raise (HTTPException 404 "Patient not found"),
        World (Some [("P001", asha_entry)]) (trace asha_world ++ [Load]))).
Proof.
  split; [reflexivity|].
  apply (view_patient_returns_stored_value asha_world); reflexivity.
Defined.

(** C5, counterexample.  The id "P001" is a key of the collection, and the
    record returned for it carries no ["id"]. *)
Lemma view_patient_does_not_reattach_id :
  dict_contains [("P001", asha_entry)] "P001" = true ∧
  ∃ r, (view_patient "P001" asha_world).1 = Return r ∧
       r !! "id" = None ∧
       r !! "id" ≠ Some (VStr "P001").
Proof.
  split; [reflexivity|]. exists asha_entry. by repeat split.
Qed.

(** ** Delete *)

(** C7.  Deleting a key removes the entries under that key and nothing else,
    writes the collection back, and a later [view_patient] on the id raises
    the 404 error; deleting an id that is not a key raises the 404 error,
    the file still holds [data] and the only file operation was the load. *)
Theorem delete_patient_present_or_absent
    (w : world) (data : collection) (patient_id : string) :
  patients_json w = Some data →
  (∀ r, dict_get data patient_id = Some r →
     let data' := filter (λ kv, kv.1 ≠ patient_id) data in
     let w' := World (Some data') (trace w ++ [Load; Save data']) in
     delete_patient patient_id w
     = (Return (JSONResponse 200
                  {[ "massage" := "Patient deleted successfully" ]}), w') ∧
     dict_get data' patient_id = None ∧
     (∀ k, k ≠ patient_id → dict_get data' k = dict_get data k) ∧
     (view_patient patient_id w').1
     = Raise (HTTPException 404 "Patient not found"))
  ∧
  (dict_get data patient_id = None →
     delete_patient patient_id w
     = (Raise (HTTPException 404 "Patient not found"),
        World (Some data) (trace w ++ [Load]))).
Proof.
  intros Hw. rewrite (delete_patient_run w data) by done. split.
  - intros r Hr. simpl.
    rewrite (proj2 (dict_contains_true _ _)) by eauto.
    rewrite <- dict_remove_filter. repeat split.
    + apply dict_get_remove_eq.
    + intros k Hk. by apply dict_get_remove_ne.
    + erewrite view_patient_run by done.
      by rewrite dict_get_remove_eq.
  - intros Habs.
    rewrite (proj2 (dict_contains_false _ _)) by done.
    unfold loaded. by rewrite Hw.
Qed.

Lemma delete_patient_present_or_absent_witness :
  patients_json asha_world = Some [("P001", asha_entry)] ∧
  (∀ r, dict_get [("P001", asha_entry)] "P001" = Some r →
     let data' := filter (λ kv, kv.1 ≠ "P001") [("P001", asha_entry)] in
     let w' := World (Some data') (trace asha_world ++ [Load; Save data']) in
     delete_patient "P001" asha_world
     = (Return (JSONResponse 200
                  {[ "massage" := "Patient deleted successfully" ]}), w') ∧
     dict_get data' "P001" = None ∧
     (∀ k, k ≠ "P001" → dict_get data' k = dict_get [("P001", asha_entry)] k) ∧
     (view_patient "P001" w').1
     = Raise (HTTPException 404 "Patient not found"))
  ∧
  (dict_get [("P001", asha_entry)] "P001" = None →
     delete_patient "P001" asha_world
     = (Raise (HTTPException 404 "Patient not found"),
        World (Some [("P001", asha_entry)]) (trace asha_world ++ [Load]))).
Proof.
  split; [reflexivity|].
  apply (delete_patient_present_or_absent asha_world); reflexivity.
Defined.

(** ** What is written to the file *)

Lemma dom_entry_of (p : Patient.t) (b : Q) (v : string) :
  dom (entry_of p b v) = list_to_set stored_fields.
Proof. reflexivity. Qed.

Lemma revalidated_no_derived (r : gmap string value) (patient_id : string)
    (patient_update : UpdatePatient.t) :
  revalidated r patient_id patient_update !! "bmi" = None ∧
  revalidated r patient_id patient_update !! "verdict" = None.
Proof. unfold revalidated. split; by simplify_map_eq. Qed.

(** C6 (as the code has it).  The entry that a successful create or update
    writes under the id is the dump of the patient without ["id"]: its keys
    are exactly name, city, age, gender, height, weight, bmi and verdict, so
    the derived fields are persisted, with the values computed from that
    patient.  A stored bmi or verdict is never read back into a patient:
    update removes both keys before it rebuilds the patient, and computes
    them again for the entry it writes. *)
Theorem written_entry_holds_input_and_derived_fields
    (w w' : world) (data : collection) (resp : response) :
  patients_json w = Some data →
  (∀ patient, create_patient patient w = (Return resp, w') →
     ∃ b v,
       Patient.bmi patient = Return b ∧ Patient.verdict patient = Return v ∧
       let r := entry_of patient b v in
       let data' := dict_set data (Patient.id patient) r in
       patients_json w' = Some data' ∧
       dict_get data' (Patient.id patient) = Some r ∧
       dom r = list_to_set stored_fields)
  ∧
  (∀ patient_id patient_update,
     update_patient patient_id patient_update w = (Return resp, w') →
     ∃ r0 patient_obj b v,
       dict_get data patient_id = Some r0 ∧
       revalidated r0 patient_id patient_update !! "bmi" = None ∧
       revalidated r0 patient_id patient_update !! "verdict" = None ∧
       Patient.init (revalidated r0 patient_id patient_update)
       = Return patient_obj ∧
       Patient.bmi patient_obj = Return b ∧
       Patient.verdict patient_obj = Return v ∧
       let r := entry_of patient_obj b v in
       let data' := dict_set data patient_id r in
       patients_json w' = Some data' ∧
       dict_get data' patient_id = Some r ∧
       dom r = list_to_set stored_fields).
Proof.
  intros Hw. split.
  - intros patient. rewrite (create_patient_run w data) by done.
    destruct (dict_contains _ _); [done|].
    destruct (Patient.model_dump_exclude patient "id") as [r|] eqn:Hr; [|done].
    intros [= _ <-].
    apply model_dump_exclude_id_inv in Hr as (b & v & Hb & Hv & ->).
    exists b, v. repeat split; try done. simpl. apply dict_get_set_eq.
  - intros patient_id patient_update.
    rewrite (update_patient_run w data) by done.
    destruct (dict_get data patient_id) as [r0|]; [|done].
    destruct (Patient.init _) as [p|] eqn:Hp; [|done].
    destruct (Patient.model_dump_exclude p "id") as [r|] eqn:Hr; [|done].
    intros [= _ <-].
    apply model_dump_exclude_id_inv in Hr as (b & v & Hb & Hv & ->).
    destruct (revalidated_no_derived r0 patient_id patient_update).
    exists r0, p, b, v. repeat split; try done. simpl. apply dict_get_set_eq.
Qed.

Lemma written_entry_holds_input_and_derived_fields_witness :
  patients_json empty_world = Some [] ∧
  create_patient asha empty_world
  = (Return (JSONResponse 201
               {[ "massage" := "Patient created successfully" ]}),
     asha_created) ∧
  ∃ b v,
    Patient.bmi asha = Return b ∧ Patient.verdict asha = Return v ∧
    let r := entry_of asha b v in
    let data' := dict_set [] (Patient.id asha) r in
    patients_json asha_created = Some data' ∧
    dict_get data' (Patient.id asha) = Some r ∧
    dom r = list_to_set stored_fields.
Proof.
  split; [reflexivity|]. split; [reflexivity|].
  apply (proj1 (written_entry_holds_input_and_derived_fields
                  empty_world asha_created []
                  (JSONResponse 201
                     {[ "massage" := "Patient created successfully" ]})
                  eq_refl) asha).
  reflexivity.
Defined.

(** C6, counterexample.  Creating [asha] in an empty collection writes an
    entry that holds ["bmi"] and ["verdict"] besides the six input fields. *)
Lemma create_patient_persists_bmi_and_verdict :
  ∃ r,
    patients_json (create_patient asha empty_world).2 = Some [("P001", r)] ∧
    r !! "bmi" = Some (VFloat (1143 # 50)) ∧
    r !! "verdict" = Some (VStr "Normal weight") ∧
    dom r ≠ list_to_set input_fields.
Proof.
  exists asha_entry. repeat split. intros H.
  assert ("bmi" ∈ dom asha_entry) as Hin by (apply elem_of_dom; by eexists).
  rewrite H in Hin. by vm_compute in Hin.
Qed.

(** ** The invariant on stored entries *)

(** Whatever [sorted] returns is a rearrangement of its argument. *)
Lemma insert_sorted_Permutation {A : Type} (key : A → value) (x : A)
    (l l' : list A) :
  insert_sorted key x l = Return l' → l' ≡ₚ x :: l.
Proof.
  revert l'. induction l as [|y l IH]; intros l'; simpl.
  { by intros [= <-]. }
  destruct (py_lt (key y) (key x)) as [[]|]; simpl; [| |done].
  - destruct (insert_sorted key x l) as [r|]; simpl; [|done].
    intros [= <-]. rewrite (IH r eq_refl). apply perm_swap.
  - by intros [= <-].
Qed.

Lemma stable_sort_Permutation {A : Type} (key : A → value) (l l' : list A) :
  stable_sort key l = Return l' → l' ≡ₚ l.
Proof.
  revert l'. induction l as [|x l IH]; intros l'; simpl.
  { by intros [= <-]. }
  destruct (stable_sort key l) as [s|]; simpl; [|done].
  intros ->%insert_sorted_Permutation. by rewrite (IH s eq_refl).
Qed.

Lemma sorted_Permutation {A : Type} (key : A → value) (reverse : bool)
    (l l' : list A) :
  sorted l key reverse = Return l' → l' ≡ₚ l.
Proof.
  unfold sorted. destruct reverse.
  - destruct (stable_sort key (rev l)) as [s|] eqn:E; simpl; [|done].
    intros [= <-]. apply stable_sort_Permutation in E.
    by rewrite <- Permutation_rev, E, <- Permutation_rev.
  - apply stable_sort_Permutation.
Qed.

Lemma handle_world (req : request) (w : world) :
  (handle req w).2
  = match req with
    | GetRoot | GetAbout => w
    | GetView => (view w).2
    | GetPatient patient_id => (view_patient patient_id w).2
    | GetSort sort_by order => (sort_patient sort_by order w).2
    | PostCreate patient => (create_patient patient w).2
    | PutEdit patient_id patient_update =>
        (update_patient patient_id patient_update w).2
    | DeleteDelete patient_id => (delete_patient patient_id w).2
    end.
Proof.
  destruct req; simpl; try done; unfold mbind, io_bind.
  - by destruct (view w) as [[] ?].
  - by destruct (view_patient _ w) as [[] ?].
  - by destruct (sort_patient _ _ w) as [[] ?].
  - by destruct (create_patient _ w) as [[] ?].
  - by destruct (update_patient _ _ w) as [[] ?].
  - by destruct (delete_patient _ w) as [[] ?].
Qed.

Lemma id_not_stored_set (data : collection) (k : string)
    (r : gmap string value) :
  id_not_stored data → r !! "id" = None → id_not_stored (dict_set data k r).
Proof.
  unfold id_not_stored. rewrite !Forall_forall.
  intros Hd Hr [k' r'] [[= -> ->]|Hin]%elem_of_dict_set; [done|].
  by apply (Hd (k', r')).
Qed.

Lemma id_not_stored_remove (data : collection) (k : string) :
  id_not_stored data → id_not_stored (dict_remove data k).
Proof.
  unfold id_not_stored. rewrite !Forall_forall.
  intros Hd [k' r'] Hin%elem_of_dict_remove. by apply (Hd (k', r')).
Qed.

Lemma entry_of_no_id (p : Patient.t) (b : Q) (v : string) :
  entry_of p b v !! "id" = None.
Proof. reflexivity. Qed.

Lemma revalidated_id (r : gmap string value) (patient_id : string)
    (patient_update : UpdatePatient.t) :
  revalidated r patient_id patient_update !! "id" = Some (VStr patient_id).
Proof. unfold revalidated. by simplify_map_eq. Qed.

(** C8 (as the code has it).  If no entry of the collection in the file
    holds an ["id"] key in its value, then after any request the file holds a
    collection with the same property.  [update_patient] puts the id back
    before it rebuilds the patient, which therefore carries the id of the
    path.  The read endpoints answer with stored values as they are: the
    record of GET /patient/{id} and the records of GET /sort carry no
    ["id"], and GET /view answers with the collection itself. *)
Theorem id_is_never_stored_in_its_entry
    (req : request) (w : world) (data : collection) :
  patients_json w = Some data →
  id_not_stored data →
  (∃ data', patients_json (handle req w).2 = Some data' ∧ id_not_stored data')
  ∧
  (∀ patient_id patient_update r patient_obj,
     req = PutEdit patient_id patient_update →
     dict_get data patient_id = Some r →
     Patient.init (revalidated r patient_id patient_update)
     = Return patient_obj →
     revalidated r patient_id patient_update !! "id" = Some (VStr patient_id)
     ∧ Patient.id patient_obj = patient_id)
  ∧
  (∀ r, (handle req w).1 = Return (Record r) → r !! "id" = None)
  ∧
  (∀ l, (handle req w).1 = Return (Records l) →
     Forall (λ r, r !! "id" = None) l)
  ∧
  (∀ c, (handle req w).1 = Return (Collection c) → c = data).
Proof.
  intros Hw Hinv. split; [|split; [|split; [|split]]].
  - rewrite handle_world. destruct req.
    + eauto.
    + eauto.
    + rewrite (view_run w data) by done. simpl. eauto.
    + rewrite (view_patient_run w data) by done. simpl. eauto.
    + destruct (decide (sort_by ∈ valid_fields));
        [destruct (decide (order ∈ ["asc"; "desc"]))|].
      * rewrite (sort_patient_run w data) by done. simpl. eauto.
      * rewrite sort_patient_invalid by tauto. eauto.
      * rewrite sort_patient_invalid by tauto. eauto.
    + rewrite (create_patient_run w data) by done.
      destruct (dict_contains _ _); [simpl; eauto|].
      destruct (Patient.model_dump_exclude patient "id") as [r|] eqn:Hr;
        [|simpl; eauto].
      apply model_dump_exclude_id_inv in Hr as (b & v & _ & _ & ->).
      simpl. eexists; split; [done|].
      apply id_not_stored_set; [done | apply entry_of_no_id].
    + rewrite (update_patient_run w data) by done.
      destruct (dict_get data patient_id) as [r0|]; [|simpl; eauto].
      destruct (Patient.init _) as [p|]; [|simpl; eauto].
      destruct (Patient.model_dump_exclude p "id") as [r|] eqn:Hr;
        [|simpl; eauto].
      apply model_dump_exclude_id_inv in Hr as (b & v & _ & _ & ->).
      simpl. eexists; split; [done|].
      apply id_not_stored_set; [done | apply entry_of_no_id].
    + rewrite (delete_patient_run w data) by done.
      destruct (dict_contains _ _); simpl; [|eauto].
      eexists; split; [done|]. by apply id_not_stored_remove.
  - intros patient_id patient_update r p _ Hr Hp.
    split; [apply revalidated_id|].
    eapply init_id; [apply revalidated_id | done].
  - intros r Hres. destruct req; simpl in Hres; unfold mbind, io_bind in Hres;
      try discriminate Hres;
      try (match type of Hres with
           | context [match ?m with _ => _ end] =>
               destruct m as [[?|?] ?]; discriminate Hres
           end).
    rewrite (view_patient_run w data) in Hres by done.
    destruct (dict_get data patient_id) as [r'|] eqn:Hr'; [|done].
    simpl in Hres. injection Hres as ->.
    apply dict_get_Some_elem in Hr'.
    unfold id_not_stored in Hinv. rewrite Forall_forall in Hinv.
    by apply (Hinv (patient_id, r)).
  - intros l Hres. destruct req; simpl in Hres; unfold mbind, io_bind in Hres;
      try discriminate Hres;
      try (match type of Hres with
           | context [match ?m with _ => _ end] =>
               destruct m as [[?|?] ?]; discriminate Hres
           end).
    destruct (decide (sort_by ∈ valid_fields ∧ order ∈ ["asc"; "desc"]))
      as [[Hs Ho]|Hbad].
    2:{ rewrite sort_patient_invalid in Hres; [done|].
        apply not_and_l in Hbad. tauto. }
    rewrite (sort_patient_run w data) in Hres by done.
    destruct (sorted _ _ _) as [out|] eqn:E; [|done].
    simpl in Hres. injection Hres as ->.
    apply sorted_Permutation in E. rewrite E.
    unfold id_not_stored in Hinv. unfold dict_values.
    apply Forall_forall. intros r Hr.
    apply list_elem_of_In, in_map_iff in Hr as ([k r'] & <- & Hin).
    rewrite Forall_forall in Hinv.
    by apply (Hinv (k, r')), list_elem_of_In.
  - intros c Hres. destruct req; simpl in Hres; unfold mbind, io_bind in Hres;
      try discriminate Hres;
      try (match type of Hres with
           | context [match ?m with _ => _ end] =>
               destruct m as [[?|?] ?]; discriminate Hres
           end).
    rewrite (view_run w data) in Hres by done. by injection Hres as ->.
Qed.

Lemma id_is_never_stored_in_its_entry_witness :
  patients_json asha_world = Some [("P001", asha_entry)] ∧
  id_not_stored [("P001", asha_entry)] ∧
  ∃ data',
    patients_json
      (handle (PutEdit "P001"
                 (UpdatePatient.mk None None None None None (Some (Some 95%Q))))
         asha_world).2 = Some data' ∧
    id_not_stored data'.
Proof.
  assert (id_not_stored [("P001", asha_entry)]) as Hinv
    by (repeat constructor).
  split; [reflexivity|]. split; [exact Hinv|].
  apply (id_is_never_stored_in_its_entry
           (PutEdit "P001"
              (UpdatePatient.mk None None None None None (Some (Some 95%Q))))
           asha_world [("P001", asha_entry)] eq_refl Hinv).
Defined.

(** C8, counterexample.  After [asha] has been created in an empty
    collection, GET /patient/P001 answers with a record that has her name
    and no ["id"]. *)
Lemma created_patient_is_returned_without_id :
  ∃ r,
    (handle (GetPatient "P001") (handle (PostCreate asha) empty_world).2).1
    = Return (Record r) ∧
    r !! "name" = Some (VStr "Asha") ∧
    r !! "id" = None.
Proof. exists asha_entry. by repeat split. Qed.

(** ** The greeting endpoints *)

(** C9, at the code.  Both endpoints answer with an object that has one
    string under the key ["massage"]; there is nothing under ["message"]. *)
Theorem hello_and_about_have_no_message_key :
  hello = {[ "massage" := "Patient Management System API" ]} ∧
  about = {[ "massage" := "A fully functional API for managing patient records." ]} ∧
  handle GetRoot empty_world = (Return (Message hello), empty_world) ∧
  handle GetAbout empty_world = (Return (Message about), empty_world) ∧
  hello !! "message" = None ∧
  about !! "message" = None ∧
  dom hello = {[ "massage" ]} ∧
  dom about = {[ "massage" ]}.
Proof. by repeat split. Qed.

(** ** Update *)

Lemma dict_get_app {V} (l1 l2 : list (string * V)) k :
  dict_get (l1 ++ l2) k = match dict_get l1 k with Some v => Some v | None => dict_get l2 k end.
Proof. induction l1 as [|[k' v'] l1 IH]; simpl; [done|]. by case_decide. Qed.

Lemma assign_all_lookup (d : gmap string value) (l : list (string * value)) (k : string) :
  NoDup (dict_keys l) →
  assign_all d l !! k = match dict_get l k with Some v => Some v | None => d !! k end.
Proof.
  unfold assign_all. revert d.
  induction l as [|[k0 v0] l IH]; intros d Hnd; [done|].
  change (dict_keys ((k0, v0) :: l)) with (k0 :: dict_keys l) in Hnd.
  apply NoDup_cons in Hnd as [Hk0 Hnd]. simpl. rewrite IH by done.
  case_decide; subst.
  - apply dict_get_None_keys in Hk0. rewrite Hk0. by rewrite lookup_insert_eq.
  - by rewrite lookup_insert_ne.
Qed.

Lemma dump_field_keys {A} key (inj : A → value) f :
  dict_keys (UpdatePatient.dump_field key inj f) `sublist_of` [key].
Proof. destruct f as [[a|]|]; simpl; repeat constructor. Qed.

Lemma dict_keys_app {V} (l1 l2 : list (string * V)) :
  dict_keys (l1 ++ l2) = dict_keys l1 ++ dict_keys l2.
Proof. induction l1 as [|? ? IH]; simpl; [done|]. by rewrite <- IH. Qed.

Lemma model_dump_exclude_unset_NoDup upd : NoDup (dict_keys (UpdatePatient.model_dump_exclude_unset upd)).
Proof.
  apply (sublist_NoDup _ input_fields).
  - by apply (bool_decide_unpack (NoDup input_fields)).
  - unfold UpdatePatient.model_dump_exclude_unset. rewrite !dict_keys_app.
    change input_fields with (["name"] ++ ["city"] ++ ["age"] ++ ["gender"] ++ ["height"] ++ ["weight"]).
    repeat apply sublist_app; apply dump_field_keys.
Qed.

Lemma dict_get_dump_field {A} key (inj : A → value) f k :
  dict_get (UpdatePatient.dump_field key inj f) k = if decide (k = key) then supplied inj f else None.
Proof. destruct f as [[a|]|]; simpl; by case_decide. Qed.

Lemma supplied_fields upd :
  let l := UpdatePatient.model_dump_exclude_unset upd in
  dict_get l "name" = supplied VStr (UpdatePatient.name upd) ∧
  dict_get l "city" = supplied VStr (UpdatePatient.city upd) ∧
  dict_get l "age" = supplied VInt (UpdatePatient.age upd) ∧
  dict_get l "gender" = supplied VStr (UpdatePatient.gender upd) ∧
  dict_get l "height" = supplied VFloat (UpdatePatient.height upd) ∧
  dict_get l "weight" = supplied VFloat (UpdatePatient.weight upd).
Proof.
  simpl. unfold UpdatePatient.model_dump_exclude_unset.
  rewrite !dict_get_app, !dict_get_dump_field.
  repeat split; simpl; by destruct (supplied _ _).
Qed.

Lemma revalidated_lookup (r : gmap string value) pid upd k :
  k ∈ input_fields →
  revalidated r pid upd !! k
  = match dict_get (UpdatePatient.model_dump_exclude_unset upd) k with
    | Some v => Some v
    | None => r !! k
    end.
Proof.
  intros Hk. unfold revalidated.
  assert (k ≠ "verdict" ∧ k ≠ "bmi" ∧ k ≠ "id") as (? & ? & ?).
  { unfold input_fields in Hk.
    repeat (apply elem_of_cons in Hk as [->|Hk]); try done.
    by apply elem_of_nil in Hk. }
  rewrite !lookup_delete_ne, lookup_insert_ne by done.
  apply assign_all_lookup, model_dump_exclude_unset_NoDup.
Qed.









(** The scenario of the specification: after weight 95 is put for P001 the
    entry holds bmi 31.02 and verdict "Obese", the rest as before. *)
Example update_asha_weight_95 :
  patients_json (update_patient "P001" (weight_only 95) asha_world).2
  = Some [("P001",
           entry_of (Patient.mk "P001" "Asha" "Pune" 30 "Male" 1.75 95)
             (1551 # 50) "Obese")].
Proof. reflexivity. Qed.



(** ** Sort *)



Section sorted_facts.
Context {A : Type} (key : A → value).





End sorted_facts.




(** Descending by bmi: the two records with bmi 22.86 come first, in the
    order of the collection, then the record without a bmi. *)
Example sort_three_records_desc :
  (sort_patient "bmi" "desc" (World (Some three_records) [])).1
  = Return [bmi_record "Asha" 22.86; bmi_record "Chen" 22.86;
            {[ "name" := VStr "Bina" ]}].
Proof. reflexivity. Qed.

Example sort_three_records_asc :
  (sort_patient "bmi" "asc" (World (Some three_records) [])).1
  = Return [{[ "name" := VStr "Bina" ]}; bmi_record "Asha" 22.86;
            bmi_record "Chen" 22.86].
Proof. reflexivity. Qed.

Example sort_invalid_field :
  sort_patient "invalid" "asc" (World (Some three_records) [])
  = (Raise (HTTPException 404 "The input is not valid"),
     World (Some three_records) []).
Proof. reflexivity. Qed.

(** * Further properties *)

(** ** Requests and the file *)

Lemma view_no_file (w : world) :
  patients_json w = None → view w = (Raise FileError, loaded w).
Proof. intros Hw. unfold view. run_io. by rewrite Hw. Qed.

Lemma view_patient_no_file (w : world) (patient_id : string) :
  patients_json w = None →
  view_patient patient_id w = (Raise FileError, loaded w).
Proof. intros Hw. unfold view_patient. run_io. by rewrite Hw. Qed.

Lemma sort_patient_no_file (w : world) (sort_by order : string) :
  patients_json w = None →
  sort_by ∈ valid_fields →
  order ∈ ["asc"; "desc"] →
  sort_patient sort_by order w = (Raise FileError, loaded w).
Proof.
  intros Hw Hs Ho. unfold sort_patient.
  rewrite !bool_decide_eq_true_2 by done. run_io. by rewrite Hw.
Qed.

Lemma create_patient_no_file (w : world) (patient : Patient.t) :
  patients_json w = None →
  create_patient patient w = (Raise FileError, loaded w).
Proof. intros Hw. unfold create_patient. run_io. by rewrite Hw. Qed.

Lemma update_patient_no_file (w : world) (patient_id : string)
    (patient_update : UpdatePatient.t) :
  patients_json w = None →
  update_patient patient_id patient_update w = (Raise FileError, loaded w).
Proof. intros Hw. unfold update_patient. run_io. by rewrite Hw. Qed.

Lemma delete_patient_no_file (w : world) (patient_id : string) :
  patients_json w = None →
  delete_patient patient_id w = (Raise FileError, loaded w).
Proof. intros Hw. unfold delete_patient. run_io. by rewrite Hw. Qed.

(** What a request does to the file: nothing, one load, or one load
    followed by one save; only a mutating request that succeeds saves. *)
Lemma handle_cases (req : request) (w : world) :
  (handle req w).2 = w
  ∨ (handle req w).2 = loaded w
  ∨ (∃ data' r, mutating req = true
                ∧ handle req w = (Return (Json r), saved w data')).
Proof.
  destruct (patients_json w) as [data|] eqn:Hw;
    destruct req; simpl; unfold mbind, io_bind.
  - by left.
  - by left.
  - rewrite (view_run w data) by done. right; by left.
  - rewrite (view_patient_run w data) by done.
    destruct (dict_get data patient_id); right; by left.
  - destruct (decide (sort_by ∈ valid_fields ∧ order ∈ ["asc"; "desc"]))
      as [[Hs Ho]|Hbad].
    + rewrite (sort_patient_run w data) by done.
      destruct (sorted _ _ _); right; by left.
    + rewrite sort_patient_invalid by (apply not_and_l in Hbad; tauto).
      by left.
  - rewrite (create_patient_run w data) by done.
    destruct (dict_contains _ _); [right; by left|].
    destruct (Patient.model_dump_exclude _ _); [|right; by left].
    right; right. by eexists _, _.
  - rewrite (update_patient_run w data) by done.
    destruct (dict_get data patient_id); [|right; by left].
    destruct (Patient.init _); [|right; by left].
    destruct (Patient.model_dump_exclude _ _); [|right; by left].
    right; right. by eexists _, _.
  - rewrite (delete_patient_run w data) by done.
    destruct (dict_contains _ _); [|right; by left].
    right; right. by eexists _, _.
  - by left.
  - by left.
  - rewrite view_no_file by done. right; by left.
  - rewrite view_patient_no_file by done. right; by left.
  - destruct (decide (sort_by ∈ valid_fields ∧ order ∈ ["asc"; "desc"]))
      as [[Hs Ho]|Hbad].
    + rewrite sort_patient_no_file by done. right; by left.
    + rewrite sort_patient_invalid by (apply not_and_l in Hbad; tauto).
      by left.
  - rewrite create_patient_no_file by done. right; by left.
  - rewrite update_patient_no_file by done. right; by left.
  - rewrite delete_patient_no_file by done. right; by left.
Qed.

(** X1.  The five read routes (GET /, /about, /view, /patient/{id}, /sort)
    never write: whatever they answer, the file holds what it held, and the
    only file operation they may add is one load. *)
Theorem read_requests_never_write (req : request) (w : world) :
  mutating req = false →
  patients_json (handle req w).2 = patients_json w ∧
  (trace (handle req w).2 = trace w
   ∨ trace (handle req w).2 = trace w ++ [Load]).
Proof.
  intros Hreq.
  destruct (handle_cases req w) as [->|[->|(data' & r & Hm & _)]].
  - split; [done | by left].
  - split; [done | by right].
  - congruence.
Qed.

Lemma read_requests_never_write_witness :
  mutating (GetSort "bmi" "desc") = false ∧
  patients_json (handle (GetSort "bmi" "desc") asha_world).2
  = patients_json asha_world ∧
  (trace (handle (GetSort "bmi" "desc") asha_world).2 = trace asha_world
   ∨ trace (handle (GetSort "bmi" "desc") asha_world).2
     = trace asha_world ++ [Load]).
Proof.
  split; [reflexivity|].
  apply (read_requests_never_write (GetSort "bmi" "desc") asha_world).
  reflexivity.
Defined.

(** X2.  No partial success: a request that raises has written nothing (the
    file holds what it held and no save was performed), and the file changes
    only through a mutating request that answers with its JSON response
    after one load followed by one save of the collection the file then
    holds. *)
Theorem failed_request_writes_nothing (req : request) (w : world) :
  (∀ e, (handle req w).1 = Raise e →
     patients_json (handle req w).2 = patients_json w ∧
     (trace (handle req w).2 = trace w
      ∨ trace (handle req w).2 = trace w ++ [Load]))
  ∧
  (patients_json (handle req w).2 ≠ patients_json w →
     ∃ data' r,
       mutating req = true ∧
       handle req w
       = (Return (Json r), World (Some data') (trace w ++ [Load; Save data']))).
Proof.
  destruct (handle_cases req w) as [E|[E|(data' & r & Hm & E)]]; rewrite E.
  - split; [intros e _; split; [done | by left] | done].
  - split; [intros e _; split; [done | by right] | done].
  - split; [by intros e ? | intros _; by exists data', r].
Qed.

Lemma failed_request_writes_nothing_witness :
  (handle (PostCreate asha) asha_world).1
  = Raise (HTTPException 401 "The patient is already exists") ∧
  patients_json (handle (PostCreate asha) asha_world).2
  = patients_json asha_world ∧
  (trace (handle (PostCreate asha) asha_world).2 = trace asha_world
   ∨ trace (handle (PostCreate asha) asha_world).2
     = trace asha_world ++ [Load]).
Proof.
  split; [reflexivity|].
  apply (proj1 (failed_request_writes_nothing (PostCreate asha) asha_world)
           (HTTPException 401 "The patient is already exists")).
  reflexivity.
Defined.

(** X3.  When [patients.json] is missing or does not parse, every route
    that reads the collection raises the file error after the attempted
    load and creates nothing; the two greeting routes answer as usual, and
    /sort still rejects a bad [sort_by] or [order] with its 404 before it
    touches the file. *)
Theorem missing_file_fails_every_storage_route (req : request) (w : world) :
  patients_json w = None →
  handle req w
  = match req with
    | GetRoot => (Return (Message hello), w)
    | GetAbout => (Return (Message about), w)
    | GetSort sort_by order =>
        if bool_decide (sort_by ∈ valid_fields ∧ order ∈ ["asc"; "desc"])
        then (Raise FileError, World None (trace w ++ [Load]))
        else (Raise (HTTPException 404 "The input is not valid"), w)
    | _ => (Raise FileError, World None (trace w ++ [Load]))
    end.
Proof.
  intros Hw. destruct req; simpl; unfold mbind, io_bind; try done.
  - rewrite view_no_file by done. unfold loaded. by rewrite Hw.
  - rewrite view_patient_no_file by done. unfold loaded. by rewrite Hw.
  - case_bool_decide as Hargs.
    + destruct Hargs. rewrite sort_patient_no_file by done.
      unfold loaded. by rewrite Hw.
    + rewrite sort_patient_invalid by (apply not_and_l in Hargs; tauto).
      done.
  - rewrite create_patient_no_file by done. unfold loaded. by rewrite Hw.
  - rewrite update_patient_no_file by done. unfold loaded. by rewrite Hw.
  - rewrite delete_patient_no_file by done. unfold loaded. by rewrite Hw.
Qed.

Lemma missing_file_fails_every_storage_route_witness :
  patients_json (World None []) = None ∧
  handle (PostCreate asha) (World None [])
  = (Raise FileError, World None ([] ++ [Load])).
Proof.
  split; [reflexivity|].
  apply (missing_file_fails_every_storage_route (PostCreate asha)
           (World None []) eq_refl).
Defined.

(** The collection in the file after a request, given the one before. *)
Lemma collection_after (req : request) (w : world) (data : collection) :
  patients_json w = Some data →
  patients_json (handle req w).2 = Some data
  ∨ (∃ patient r, req = PostCreate patient
       ∧ dict_get data (Patient.id patient) = None
       ∧ Patient.model_dump_exclude patient "id" = Return r
       ∧ patients_json (handle req w).2
         = Some (data ++ [(Patient.id patient, r)]))
  ∨ (∃ patient_id patient_update r0 patient_obj r,
       req = PutEdit patient_id patient_update
       ∧ dict_get data patient_id = Some r0
       ∧ Patient.init (revalidated r0 patient_id patient_update)
         = Return patient_obj
       ∧ Patient.model_dump_exclude patient_obj "id" = Return r
       ∧ patients_json (handle req w).2 = Some (dict_set data patient_id r))
  ∨ (∃ patient_id r0, req = DeleteDelete patient_id
       ∧ dict_get data patient_id = Some r0
       ∧ patients_json (handle req w).2
         = Some (dict_remove data patient_id)).
Proof.
  intros Hw. rewrite handle_world. destruct req.
  - by left.
  - by left.
  - rewrite (view_run w data) by done. by left.
  - rewrite (view_patient_run w data) by done. by left.
  - destruct (decide (sort_by ∈ valid_fields ∧ order ∈ ["asc"; "desc"]))
      as [[Hs Ho]|Hbad].
    + rewrite (sort_patient_run w data) by done. by left.
    + rewrite sort_patient_invalid by (apply not_and_l in Hbad; tauto).
      by left.
  - rewrite (create_patient_run w data) by done.
    destruct (dict_contains _ _) eqn:Hc; [by left|].
    destruct (Patient.model_dump_exclude _ _) as [r|] eqn:Hd; [|by left].
    apply dict_contains_false in Hc.
    right; left. exists patient, r. simpl. by rewrite dict_set_fresh.
  - rewrite (update_patient_run w data) by done.
    destruct (dict_get data patient_id) as [r0|] eqn:Hr; [|by left].
    destruct (Patient.init _) as [p|] eqn:Hp; [|by left].
    destruct (Patient.model_dump_exclude _ _) as [r|] eqn:Hd; [|by left].
    right; right; left. by exists patient_id, patient_update, r0, p, r.
  - rewrite (delete_patient_run w data) by done.
    destruct (dict_contains _ _) eqn:Hc; [|by left].
    apply dict_contains_true in Hc as [r0 Hr0].
    right; right; right. by exists patient_id, r0.
Qed.

Lemma dict_keys_remove {V : Type} (d : list (string * V)) (k : string) :
  dict_keys (dict_remove d k) = filter (λ k', k' ≠ k) (dict_keys d).
Proof.
  induction d as [|[k' v'] d IH]; simpl; [done|].
  case_decide; subst.
  - rewrite filter_cons_False by tauto. done.
  - rewrite filter_cons_True by congruence. simpl. by rewrite IH.
Qed.

Lemma dict_get_Some_keys {V : Type} (d : list (string * V)) (k : string)
    (v : V) :
  dict_get d k = Some v → k ∈ dict_keys d.
Proof.
  intros Hv. destruct (decide (k ∈ dict_keys d)) as [|Hn]; [done|].
  apply dict_get_None_keys in Hn. congruence.
Qed.

(** X4.  The keys of the collection stay unique under every request, and
    only create and delete change the list of keys: a successful create
    appends its id, a successful delete removes its id and keeps the order
    of the others, and an update leaves every key at its position. *)
Theorem keys_stay_unique_and_ordered
    (req : request) (w : world) (data : collection) :
  patients_json w = Some data →
  NoDup (dict_keys data) →
  ∃ data',
    patients_json (handle req w).2 = Some data' ∧
    NoDup (dict_keys data') ∧
    (dict_keys data' = dict_keys data
     ∨ (∃ patient, req = PostCreate patient
          ∧ (Patient.id patient ∉ dict_keys data)
          ∧ dict_keys data' = dict_keys data ++ [Patient.id patient])
     ∨ (∃ patient_id, req = DeleteDelete patient_id
          ∧ (patient_id ∈ dict_keys data)
          ∧ dict_keys data' = filter (λ k, k ≠ patient_id) (dict_keys data))).
Proof.
  intros Hw Hnd.
  destruct (collection_after req w data Hw)
    as [E|[(p & r & -> & Hfresh & _ & E)
          |[(i & u & r0 & p & r & -> & Hr0 & _ & _ & E)
           |(i & r0 & -> & Hr0 & E)]]];
    rewrite E; eexists; (split; [done|]).
  - split; [done | by left].
  - apply dict_get_None_keys in Hfresh. rewrite dict_keys_app. simpl. split.
    + apply NoDup_app. split; [done|]. split; [|apply NoDup_singleton].
      intros k Hk ->%list_elem_of_singleton. done.
    + right; left. by exists p.
  - apply dict_get_Some_keys in Hr0.
    rewrite dict_keys_set_present by done. split; [done | by left].
  - apply dict_get_Some_keys in Hr0. rewrite dict_keys_remove. split.
    + by apply NoDup_filter.
    + right; right. by exists i.
Qed.

Lemma keys_stay_unique_and_ordered_witness :
  patients_json asha_world = Some [("P001", asha_entry)] ∧
  NoDup (dict_keys [("P001", asha_entry)]) ∧
  ∃ data',
    patients_json (handle (PutEdit "P001" (weight_only 95)) asha_world).2
    = Some data' ∧
    NoDup (dict_keys data').
Proof.
  assert (NoDup (dict_keys [("P001", asha_entry)])) as Hnd
    by (apply NoDup_singleton).
  split; [reflexivity|]. split; [exact Hnd|].
  destruct (keys_stay_unique_and_ordered
              (PutEdit "P001" (weight_only 95)) asha_world
              [("P001", asha_entry)] eq_refl Hnd) as (data' & H1 & H2 & _).
  exists data'. split; assumption.
Defined.

(** X5.  A request changes nothing under any other id: after every request,
    each key other than the id the request addresses has the entry it had
    (or is still absent). *)
Theorem request_touches_only_its_id
    (req : request) (w : world) (data : collection) :
  patients_json w = Some data →
  ∃ data',
    patients_json (handle req w).2 = Some data' ∧
    ∀ k, target req ≠ Some k → dict_get data' k = dict_get data k.
Proof.
  intros Hw.
  destruct (collection_after req w data Hw)
    as [E|[(p & r & -> & Hfresh & _ & E)
          |[(i & u & r0 & p & r & -> & Hr0 & _ & _ & E)
           |(i & r0 & -> & Hr0 & E)]]];
    rewrite E; eexists; (split; [done|]); intros k Hk; simpl in Hk.
  - done.
  - rewrite dict_get_app. destruct (dict_get data k); [done|].
    simpl. rewrite decide_False; [done | congruence].
  - apply dict_get_set_ne. congruence.
  - apply dict_get_remove_ne. congruence.
Qed.

Lemma request_touches_only_its_id_witness :
  patients_json asha_world = Some [("P001", asha_entry)] ∧
  ∃ data',
    patients_json (handle (DeleteDelete "P002") asha_world).2 = Some data' ∧
    ∀ k, target (DeleteDelete "P002") ≠ Some k →
         dict_get data' k = dict_get [("P001", asha_entry)] k.
Proof.
  split; [reflexivity|].
  apply (request_touches_only_its_id (DeleteDelete "P002") asha_world
           [("P001", asha_entry)] eq_refl).
Defined.

(** ** Round trips *)












(** ** The constructor *)

Lemma init_Raise (d : gmap string value) (e : exn) :
  Patient.init d = Raise e →
  e = ValidationError (validation_errors d) ∧ validation_errors d ≠ [].
Proof.
  unfold Patient.init, validation_errors.
  destruct (validate_str (d !! "id")),
    (validate_str (d !! "name")),
    (validate_str (d !! "city")),
    (constrain age_ok (validate_int (d !! "age"))),
    (constrain gender_ok (validate_str (d !! "gender"))),
    (constrain positive_ok (validate_float (d !! "height"))),
    (constrain positive_ok (validate_float (d !! "weight")));
    intros H; try discriminate H; injection H as <-; by split.
Qed.


Lemma init_Return_no_errors (d : gmap string value) (p : Patient.t) :
  Patient.init d = Return p → validation_errors d = [].
Proof.
  unfold Patient.init, validation_errors.
  destruct (validate_str (d !! "id")),
    (validate_str (d !! "name")),
    (validate_str (d !! "city")),
    (constrain age_ok (validate_int (d !! "age"))),
    (constrain gender_ok (validate_str (d !! "gender"))),
    (constrain positive_ok (validate_float (d !! "height"))),
    (constrain positive_ok (validate_float (d !! "weight")));
    intros H; by try discriminate H.
Qed.

(** A required field that is missing or [None] is reported. *)
Lemma validation_errors_missing (d : gmap string value) (f : string) :
  f ∈ "id" :: input_fields →
  d !! f = None ∨ d !! f = Some VNone →
  f ∈ validation_errors d.
Proof.
  intros Hf Hd. unfold validation_errors. rewrite !elem_of_app.
  unfold input_fields in Hf.
  repeat (apply elem_of_cons in Hf as [->|Hf]);
    try (by apply elem_of_nil in Hf);
    destruct Hd as [-> | ->]; simpl;
    rewrite ?list_elem_of_singleton; tauto.
Qed.





(** X12.  Update fails without writing: for an id that is not a key it
    raises the 404 error, and for a stored entry and a body that sets some
    field to [null] it raises a validation error that names every such
    field; in both cases the file holds what it held and was only loaded. *)
Theorem update_patient_failures_write_nothing
    (w : world) (data : collection) (patient_id : string)
    (patient_update : UpdatePatient.t) :
  patients_json w = Some data →
  (dict_get data patient_id = None →
     update_patient patient_id patient_update w
     = (Raise (HTTPException 404 "Patient not found"),
        World (Some data) (trace w ++ [Load])))
  ∧
  (∀ r, dict_get data patient_id = Some r →
     sets_no_null patient_update = false →
     ∃ fields,
       update_patient patient_id patient_update w
       = (Raise (ValidationError fields),
          World (Some data) (trace w ++ [Load])) ∧
       fields ≠ [] ∧
       ∀ k, dict_get (UpdatePatient.model_dump_exclude_unset patient_update) k
            = Some VNone → k ∈ fields).
Proof.
  intros Hw. rewrite (update_patient_run w data) by done.
  unfold loaded. rewrite Hw. split; [by intros ->|].
  intros r -> Hnull.
  assert (∀ k, dict_get (UpdatePatient.model_dump_exclude_unset patient_update)
                 k = Some VNone →
               k ∈ validation_errors (revalidated r patient_id patient_update))
    as Hnamed.
  { intros k Hk.
    assert (k ∈ input_fields) as Hin.
    { apply dict_get_Some_keys in Hk.
      eapply elem_of_sublist; [exact Hk|].
      unfold UpdatePatient.model_dump_exclude_unset. rewrite !dict_keys_app.
      change input_fields
        with (["name"] ++ ["city"] ++ ["age"] ++ ["gender"] ++ ["height"]
              ++ ["weight"]).
      repeat apply sublist_app; apply dump_field_keys. }
    apply validation_errors_missing; [by right|].
    right. by rewrite revalidated_lookup, Hk. }
  assert (∃ k, dict_get (UpdatePatient.model_dump_exclude_unset patient_update)
                 k = Some VNone) as [k Hk].
  { destruct (supplied_fields patient_update) as (Sn & Sc & Sa & Sg & Sh & Sw).
    unfold sets_no_null in Hnull. rewrite !andb_false_iff in Hnull.
    destruct patient_update as [n c a g h wt]; simpl in *.
    destruct Hnull as [[[[[Hf|Hf]|Hf]|Hf]|Hf]|Hf];
      [ exists "name"; rewrite Sn; by destruct n as [[?|]|]
      | exists "city"; rewrite Sc; by destruct c as [[?|]|]
      | exists "age"; rewrite Sa; by destruct a as [[?|]|]
      | exists "gender"; rewrite Sg; by destruct g as [[?|]|]
      | exists "height"; rewrite Sh; by destruct h as [[?|]|]
      | exists "weight"; rewrite Sw; by destruct wt as [[?|]|] ]. }
  destruct (Patient.init (revalidated r patient_id patient_update))
    as [p|e] eqn:Hinit.
  - exfalso. apply Hnamed in Hk.
    rewrite (init_Return_no_errors _ _ Hinit) in Hk.
    by apply elem_of_nil in Hk.
  - apply init_Raise in Hinit as [-> Hne]. eauto.
Qed.

Lemma update_patient_failures_write_nothing_witness :
  patients_json asha_world = Some [("P001", asha_entry)] ∧
  dict_get [("P001", asha_entry)] "P001" = Some asha_entry ∧
  sets_no_null weight_null = false ∧
  ∃ fields,
    update_patient "P001" weight_null asha_world
    = (Raise (ValidationError fields),
       World (Some [("P001", asha_entry)]) (trace asha_world ++ [Load])) ∧
    fields ≠ [] ∧
    ∀ k, dict_get (UpdatePatient.model_dump_exclude_unset weight_null) k
         = Some VNone → k ∈ fields.
Proof.
  split; [reflexivity|]. split; [reflexivity|]. split; [reflexivity|].
  apply (proj2 (update_patient_failures_write_nothing asha_world
                  [("P001", asha_entry)] "P001" weight_null eq_refl)
           asha_entry eq_refl eq_refl).
Defined.

(** ** Entries written by the application *)

Lemma written_dump (p : Patient.t) (r : gmap string value) :
  Patient.valid p = true →
  Patient.model_dump_exclude p "id" = Return r →
  written r.
Proof.
  intros Hp (b & v & Hb & Hv & ->)%model_dump_exclude_id_inv.
  by exists p, b, v.
Qed.

(** X13.  If every entry of the collection is the dump of a valid patient
    with the bmi and verdict computed from its height and weight, the same
    holds after every request (a create request carrying a valid patient):
    a stored bmi or verdict never drifts from the stored measurements. *)
Theorem entries_stay_dumps_of_valid_patients
    (req : request) (w : world) (data : collection) :
  patients_json w = Some data →
  Forall (λ kv, written kv.2) data →
  (∀ patient, req = PostCreate patient → Patient.valid patient = true) →
  ∃ data',
    patients_json (handle req w).2 = Some data' ∧
    Forall (λ kv, written kv.2) data'.
Proof.
  intros Hw Hall Hreq.
  destruct (collection_after req w data Hw)
    as [E|[(p & r & -> & Hfresh & Hd & E)
          |[(i & u & r0 & p & r & -> & Hr0 & Hp & Hd & E)
           |(i & r0 & -> & Hr0 & E)]]];
    rewrite E; eexists; (split; [done|]).
  - done.
  - apply Forall_app. split; [done|]. constructor; [|constructor].
    eapply written_dump; [|exact Hd]. by apply Hreq.
  - rewrite Forall_forall in *.
    intros [k' r'] [[= -> ->]|Hin]%elem_of_dict_set.
    + eapply written_dump; [|exact Hd]. by eapply init_valid.
    + by apply (Hall (k', r')).
  - rewrite Forall_forall in *.
    intros [k' r'] Hin%elem_of_dict_remove. by apply (Hall (k', r')).
Qed.

Lemma asha_entry_written : Forall (λ kv, written kv.2) [("P001", asha_entry)].
Proof.
  constructor; [|constructor]. by exists asha, (1143 # 50), "Normal weight".
Qed.

Lemma entries_stay_dumps_of_valid_patients_witness :
  patients_json asha_world = Some [("P001", asha_entry)] ∧
  Forall (λ kv, written kv.2) [("P001", asha_entry)] ∧
  ∃ data',
    patients_json (handle (PutEdit "P001" (weight_only 95)) asha_world).2
    = Some data' ∧
    Forall (λ kv, written kv.2) data'.
Proof.
  split; [reflexivity|]. split; [exact asha_entry_written|].
  apply (entries_stay_dumps_of_valid_patients
           (PutEdit "P001" (weight_only 95)) asha_world
           [("P001", asha_entry)] eq_refl asha_entry_written).
  intros patient H. discriminate H.
Defined.



(** ** Rounding *)












(** ** Keys that cannot be compared *)

Lemma py_lt_None_l (b : value) : py_lt VNone b = Raise TypeError.
Proof. unfold py_lt. simpl. by destruct (as_number b). Qed.

Lemma py_lt_None_r (a : value) : py_lt a VNone = Raise TypeError.
Proof. unfold py_lt. simpl. destruct (as_number a); by destruct a. Qed.

Lemma py_lt_raises (a b : value) (e : exn) :
  py_lt a b = Raise e → e = TypeError.
Proof.
  unfold py_lt. destruct (as_number a), (as_number b), a, b;
    intros H; by try (discriminate H || injection H as <-).
Qed.

Lemma insert_sorted_raises {A : Type} (key : A → value) (x : A) (l : list A)
    (e : exn) :
  insert_sorted key x l = Raise e → e = TypeError.
Proof.
  induction l as [|y l IH]; simpl; [done|].
  destruct (py_lt (key y) (key x)) as [[]|e'] eqn:E; simpl.
  - destruct (insert_sorted key x l); simpl; [done|].
    intros [= <-]. by apply IH.
  - done.
  - intros [= <-]. by eapply py_lt_raises.
Qed.

Lemma stable_sort_raises {A : Type} (key : A → value) (l : list A) (e : exn) :
  stable_sort key l = Raise e → e = TypeError.
Proof.
  revert e. induction l as [|x l IH]; intros e; simpl; [done|].
  destruct (stable_sort key l) as [s|e']; simpl.
  - apply insert_sorted_raises.
  - intros [= <-]. by apply IH.
Qed.

Lemma stable_sort_None {A : Type} (key : A → value) (l : list A) :
  (2 <= length l)%nat →
  (∃ x, x ∈ l ∧ key x = VNone) →
  stable_sort key l = Raise TypeError.
Proof.
  induction l as [|x l IH]; simpl; [lia|].
  intros Hlen (z & Hz & Hkey).
  destruct (stable_sort key l) as [s|e] eqn:Hs; simpl.
  2:{ by rewrite (stable_sort_raises _ _ _ Hs). }
  pose proof (stable_sort_Permutation _ _ _ Hs) as Hperm.
  destruct s as [|y s].
  { apply Permutation_nil_l in Hperm. subst l. simpl in Hlen. lia. }
  simpl. apply elem_of_cons in Hz as [->|Hz].
  - rewrite Hkey, py_lt_None_r. reflexivity.
  - destruct l as [|a [|a' l]].
    + by apply elem_of_nil in Hz.
    + apply list_elem_of_singleton in Hz as ->.
      simpl in Hs. injection Hs as <- <-.
      rewrite Hkey, py_lt_None_l. reflexivity.
    + exfalso. assert (Return (y :: s) = Raise TypeError) as Habs; [|done].
      apply IH; [simpl; lia | by exists z].
Qed.

Lemma sorted_None {A : Type} (key : A → value) (l : list A) (reverse : bool) :
  (2 <= length l)%nat →
  (∃ x, x ∈ l ∧ key x = VNone) →
  sorted l key reverse = Raise TypeError.
Proof.
  intros Hlen (z & Hz & Hkey). unfold sorted. destruct reverse.
  - rewrite stable_sort_None.
    + reflexivity.
    + rewrite length_rev. exact Hlen.
    + exists z. split; [|done].
      rewrite list_elem_of_In, <- in_rev, <- list_elem_of_In. exact Hz.
  - apply stable_sort_None; [done | by exists z].
Qed.

(** X17.  The default 0 of [x.get(sort_by, 0)] covers a missing field only:
    when the collection has at least two records and some record holds
    [null] under the field, /sort raises a type error instead of answering;
    the file is only loaded. *)
Theorem sort_patient_raises_on_null_field
    (w : world) (data : collection) (sort_by order : string)
    (r : gmap string value) :
  patients_json w = Some data →
  sort_by ∈ valid_fields →
  order ∈ ["asc"; "desc"] →
  (2 <= length data)%nat →
  r ∈ dict_values data →
  r !! sort_by = Some VNone →
  sort_patient sort_by order w
  = (Raise TypeError, World (Some data) (trace w ++ [Load])).
Proof.
  intros Hw Hs Ho Hlen Hr Hnull.
  rewrite (sort_patient_run w data) by done.
  rewrite sorted_None.
  - unfold loaded. by rewrite Hw.
  - unfold dict_values. by rewrite length_map.
  - exists r. split; [done|]. unfold record_get. by rewrite Hnull.
Qed.

Lemma null_bmi_record_in_collection :
  <["name" := VStr "Bina"]> (<["bmi" := VNone]> ∅)
  ∈ dict_values null_bmi_records.
Proof. unfold null_bmi_records, dict_values. simpl. right. left. Qed.

Lemma sort_patient_raises_on_null_field_witness :
  let w := World (Some null_bmi_records) [] in
  patients_json w = Some null_bmi_records ∧
  "bmi" ∈ valid_fields ∧
  "asc" ∈ ["asc"; "desc"] ∧
  (2 <= length null_bmi_records)%nat ∧
  sort_patient "bmi" "asc" w
  = (Raise TypeError, World (Some null_bmi_records) (trace w ++ [Load])).
Proof.
  assert ("bmi" ∈ valid_fields) as Hs by in_list.
  assert ("asc" ∈ ["asc"; "desc"]) as Ho by in_list.
  assert (2 <= length null_bmi_records)%nat as Hlen by (simpl; lia).
  simpl. split; [reflexivity|]. split; [exact Hs|]. split; [exact Ho|].
  split; [exact Hlen|].
  apply (sort_patient_raises_on_null_field (World (Some null_bmi_records) [])
           null_bmi_records "bmi" "asc" _ eq_refl Hs Ho Hlen
           null_bmi_record_in_collection eq_refl).
Defined.

(** ** Updates in sequence *)









